(** * lxc_start: the container start protocol of src/lxc/start.c

    A shallow embedding of [lxc_start].  The function is one C procedure
    that calls into the operating system and into other lxc modules, forks,
    and unwinds through a ladder of [goto] labels.  It is embedded as a
    function from an [Oracle] (the status every external call hands back)
    to the trace of external calls the process performs together with the
    way the process leaves [lxc_start]: it returns a value (launcher), it
    calls [exit] (spawned process), or its image is replaced by [execvp]. *)

From Stdlib Require Import ZArith List String Ascii DecimalString Bool Lia.
From Stdlib Require DecimalPos DecimalZ.
Import ListNotations.
Local Open Scope Z_scope.

(** ** Constants of the C environment *)

(** Namespace flags, <linux/sched.h>. *)
Definition CLONE_NEWNS  : Z := 0x00020000.
Definition CLONE_NEWUTS : Z := 0x04000000.
Definition CLONE_NEWIPC : Z := 0x08000000.
Definition CLONE_NEWPID : Z := 0x20000000.
Definition CLONE_NEWNET : Z := 0x40000000.

(** <errno.h>, <sys/param.h>, and [sizeof(int)] for the [sync] word. *)
Definition EINTR : Z := 4.
Definition MAXPATHLEN : Z := 4096.
Definition SIZEOF_SYNC : Z := 4.

Inductive signal := SIGINT | SIGQUIT | SIGKILL.

(** The lifecycle states [lxc_start] names. *)
Inductive lxc_state := STARTING | RUNNING | STOPPING | STOPPED | ABORTING.

(** Descriptors the function touches: the two ends of the socketpair and
    the descriptor [open] returned for the pid record. *)
Inductive desc := Sv0 | Sv1 | Fd (fd : Z).

Inductive log_level := LError | LSysError | LWarning.

(** ** External calls

    One constructor per external call of [lxc_start], carrying the
    arguments that vary and, where the C code looks at it, the status the
    call returned. *)
Inductive event :=
| ELog (lvl : log_level) (fmt : string)
| EGetLock (r : Z)
| ESetState (s : lxc_state) (r : Z)
| EReadlink (r : Z)
| ESocketpair (r : Z)
| EAddHandler (sig : signal)
| EDelHandler (sig : signal)
| EHasUtsname (r : Z)
| EHasNetwork (r : Z)
| EForkNs (flags : Z) (r : Z)
| EClose (d : desc)
| ECloexec (d : desc)
| ERead (d : desc) (n : Z) (r : Z)
| EWrite (d : desc) (n : Z) (r : Z)
| ESetup (r : Z)
| EMount (src : string) (r : Z)
| ECapDrop (r : Z)
| EExecvp (argv : list string) (r : option Z)
| ELinkNsgroup (pid : Z) (r : Z)
| ECreateNetwork (pid : Z) (r : Z)
| EDestroyNetwork (r : Z)
| EWaitpid (pid : Z) (r : Z) (errno : Z)
| EAsprintf (val : string)
| ESnprintf (path : string)
| EOpen (path : string) (fd : Z)
| EWriteFile (fd : Z) (buf : string) (n : Z) (r : Z)
| EKill (pid : Z) (sig : signal)
| EUnlinkNsgroup
| EUnlink (path : option string)
| EFree (val : option string)
| EPutLock (lock : Z).

(** How the process leaves [lxc_start]. *)
Inductive outcome :=
| Returned (ret : Z)
| Exited (status : Z)
| Execed.

(** The status of every external call.  One field per call site whose
    result the code reads; [waitpid_script] lists the results (return
    value, errno) of the successive [waitpid] calls, and once it is
    exhausted [waitpid] reports the child. [execvp_res] is [None] when the
    exec succeeds, in which case [execvp] does not return. *)
Record Oracle := {
  lxc_get_lock_res : Z;
  lxc_setstate_res : lxc_state -> Z;
  readlink_res : Z;
  ttyname_val : string;
  socketpair_res : Z;
  conf_has_utsname_res : Z;
  conf_has_network_res : Z;
  fork_ns_res : Z;
  child_write_ready_res : Z;
  child_read_continue_res : Z;
  lxc_setup_res : Z;
  child_write_setup_res : Z;
  mount_res : Z;
  prctl_res : Z;
  execvp_res : option Z;
  child_write_exec_res : Z;
  read_ready_res : Z;
  lxc_link_nsgroup_res : Z;
  conf_create_network_res : Z;
  write_continue_res : Z;
  read_outcome_res : Z;
  open_res : Z;
  write_pid_res : Z;
  waitpid_script : list (Z * Z);
  conf_destroy_network_res : Z
}.

(** ** The trace monad *)

Definition M (A : Type) : Type := (list event * A)%type.

Definition ret {A} (a : A) : M A := ([], a).

Definition bind {A B} (m : M A) (k : A -> M B) : M B :=
  let (t1, a) := m in
  let (t2, b) := k a in
  (t1 ++ t2, b).

(** An external call with status [r]: recorded, and [r] handed back. *)
Definition call {A} (e : A -> event) (r : A) : M A := ([e r], r).

Definition emit (e : event) : M unit := ([e], tt).

Definition when (b : bool) (m : M unit) : M unit :=
  if b then m else ret tt.

(** [lxc_log_error], [lxc_log_syserror], [lxc_log_warning]; and a message
    logged only if the status just tested is a failure. *)
Definition log (lvl : log_level) (fmt : string) : M unit :=
  emit (ELog lvl fmt).

Definition log_when (b : bool) (lvl : log_level) (fmt : string) : M unit :=
  when b (log lvl fmt).

Declare Scope trace_scope.
Delimit Scope trace_scope with trace.
Notation "x <- m ;; k" := (bind m (fun x => k))
  (at level 100, m at next level, right associativity) : trace_scope.
Notation "m ;; k" := (bind m (fun _ => k))
  (at level 100, right associativity) : trace_scope.
Local Open Scope trace_scope.

(** C truth of an [int]. *)
Definition truthy (z : Z) : bool := negb (z =? 0).

(** ** Pieces of [lxc_start] *)

(** Lines 91-95: the clone flags, from the two configuration queries. *)
Definition compute_clone_flags (has_utsname has_network : Z) : Z :=
  let clone_flags := Z.lor (Z.lor CLONE_NEWPID CLONE_NEWIPC) CLONE_NEWNS in
  let clone_flags :=
    if truthy has_utsname then Z.lor clone_flags CLONE_NEWUTS else clone_flags in
  let clone_flags :=
    if truthy has_network then Z.lor clone_flags CLONE_NEWNET else clone_flags in
  clone_flags.

(** [asprintf(&val, "%d\n", pid)]. *)
Definition newline : string := String (ascii_of_nat 10) EmptyString.

Definition format_pid (pid : Z) : string :=
  (NilZero.string_of_int (Z.to_int pid) ++ newline)%string.

Definition strlen (s : string) : Z := Z.of_nat (String.length s).

(** Lines 212-218: [wait_again].  Each call takes the next result of the
    script; an interrupted call is retried, any other error ends the loop
    with [true] (failure). *)
Fixpoint wait_again (pid : Z) (script : list (Z * Z)) : M bool :=
  match script with
  | [] => emit (EWaitpid pid pid 0) ;; ret false
  | (r, errno) :: script' =>
      emit (EWaitpid pid r errno) ;;
      if r <? 0 then
        if errno =? EINTR then wait_again pid script'
        else ret true
      else ret false
  end.

Section Start.

(** What the build fixes: the two error codes of "error.h", the
    [LXCPATH] prefix, and whether [NETWORK_DESTROY] is defined. *)
Variables (LXC_ERROR_BUSY LXC_ERROR_INTERNAL : Z).
Variable LXCPATH : string.
Variable NETWORK_DESTROY : bool.

(** The arguments, and the environment of the run. *)
Variable name : string.
Variable argv : list string.
Variable O : Oracle.

Definition lxc_setstate (s : lxc_state) : M Z :=
  call (ESetState s) (lxc_setstate_res O s).

(** [snprintf(init, MAXPATHLEN, LXCPATH "/%s/init", name)]. *)
Definition init_path : string :=
  substring 0 (Z.to_nat (MAXPATHLEN - 1)) (LXCPATH ++ "/" ++ name ++ "/init").

(** Label [out], lines 229-240.  [init] is [None] while the buffer has
    not been filled by [snprintf], [val] is [None] while it is NULL. *)
Definition out (lock : Z) (init val : option string) (err : Z) : M outcome :=
  r <- lxc_setstate STOPPED ;;
  log_when (truthy r) LError "failed to set state %s" ;;
  emit EUnlinkNsgroup ;;
  emit (EUnlink init) ;;
  emit (EFree val) ;;
  emit (EPutLock lock) ;;
  emit (EDelHandler SIGQUIT) ;;
  emit (EDelHandler SIGINT) ;;
  ret (Returned err).

(** Label [err_fork_ns], lines 260-263. *)
Definition err_fork_ns (lock : Z) (init val : option string) (err : Z)
  : M outcome :=
  emit (EClose Sv0) ;;
  emit (EClose Sv1) ;;
  out lock init val err.

(** Labels [err_create_network], [err_pipe_read], [err_waitpid_failed],
    lines 253-259. *)
Definition err_create_network (pid lock : Z) (init val : option string)
    (err : Z) : M outcome :=
  r <- lxc_setstate ABORTING ;;
  log_when (truthy r) LError "failed to set state %s" ;;
  emit (EKill pid SIGKILL) ;;
  err_fork_ns lock init val err.

(** Labels [err_state_failed], [err_child_failed], [err_pipe_read2],
    [err_pipe_write], lines 245-252. *)
Definition err_pipe_write (clone_flags pid lock : Z)
    (init val : option string) (err : Z) : M outcome :=
  when (NETWORK_DESTROY && truthy (Z.land clone_flags CLONE_NEWNET))
    (emit (EDestroyNetwork (conf_destroy_network_res O))) ;;
  err_create_network pid lock init val err.

(** Label [err_write], lines 242-243. *)
Definition err_write (fd clone_flags pid lock : Z)
    (init val : option string) (err : Z) : M outcome :=
  emit (EClose (Fd fd)) ;;
  err_pipe_write clone_flags pid lock init val err.

(** Lines 104-150: the spawned process. [ttyname] was filled by
    [readlink] before the fork. *)
Definition out_child : M outcome := ret (Exited 1).

Definition child : M outcome :=
  emit (EClose Sv1) ;;
  emit (ECloexec Sv0) ;;
  r <- call (EWrite Sv0 SIZEOF_SYNC) (child_write_ready_res O) ;;
  if r <? 0 then
    log LSysError "failed to write socket" ;; out_child
  else
  r <- call (ERead Sv0 SIZEOF_SYNC) (child_read_continue_res O) ;;
  if r <? 0 then
    log LSysError "failed to read socket" ;; out_child
  else
  r <- call ESetup (lxc_setup_res O) ;;
  if truthy r then
    log LError "failed to setup the container" ;;
    w <- call (EWrite Sv0 SIZEOF_SYNC) (child_write_setup_res O) ;;
    log_when (w <? 0) LSysError "failed to write the socket" ;;
    out_child
  else
  r <- call (EMount (ttyname_val O)) (mount_res O) ;;
  if truthy r then
    log LSysError "failed to mount '/dev/console'" ;; out_child
  else
  r <- call ECapDrop (prctl_res O) ;;
  if truthy r then
    log LSysError "failed to remove CAP_SYS_BOOT capability" ;;
    out_child
  else
  x <- call (EExecvp argv) (execvp_res O) ;;
  match x with
  | None => ret Execed
  | Some _ =>
      log LSysError "failed to exec %s" ;;
      w <- call (EWrite Sv0 SIZEOF_SYNC) (child_write_exec_res O) ;;
      log_when (w <? 0) LSysError "failed to write the socket" ;;
      out_child
  end.

(** Lines 152-228: the launcher after the fork. *)
Definition parent (clone_flags pid lock : Z) : M outcome :=
  let err := - LXC_ERROR_INTERNAL in
  emit (EClose Sv0) ;;
  r <- call (ERead Sv1 SIZEOF_SYNC) (read_ready_res O) ;;
  if r <? 0 then
    log LSysError "failed to read the socket" ;;
    err_create_network pid lock None None err
  else
  r <- call (ELinkNsgroup pid) (lxc_link_nsgroup_res O) ;;
  log_when (truthy r) LWarning "cgroupfs not found: cgroup disabled" ;;
  c <- (if truthy (Z.land clone_flags CLONE_NEWNET)
        then r <- call (ECreateNetwork pid) (conf_create_network_res O) ;;
             ret (truthy r)
        else ret false) ;;
  if c then
    log LError "failed to create the configured network" ;;
    err_create_network pid lock None None err
  else
  r <- call (EWrite Sv1 SIZEOF_SYNC) (write_continue_res O) ;;
  if r <? 0 then
    log LSysError "failed to write the socket" ;;
    err_pipe_write clone_flags pid lock None None err
  else
  err <- call (ERead Sv1 SIZEOF_SYNC) (read_outcome_res O) ;;
  if err <? 0 then
    log LError "failed to read the socket" ;;
    err_pipe_write clone_flags pid lock None None err
  else
  if err >? 0 then
    log LError "something went wrong with %d" ;;
    emit (EWaitpid pid (fst (hd (pid, 0) (waitpid_script O)))
                       (snd (hd (pid, 0) (waitpid_script O)))) ;;
    err_pipe_write clone_flags pid lock None None err
  else
  val <- call EAsprintf (format_pid pid) ;;
  init <- call ESnprintf init_path ;;
  fd <- call (EOpen init) (open_res O) ;;
  if fd <? 0 then
    log LSysError "failed to open '%s'" ;;
    err_write fd clone_flags pid lock (Some init) (Some val) err
  else
  r <- call (EWriteFile fd val (strlen val)) (write_pid_res O) ;;
  if r <? 0 then
    log LSysError "failed to write the init pid" ;;
    err_write fd clone_flags pid lock (Some init) (Some val) err
  else
  emit (EClose (Fd fd)) ;;
  r <- lxc_setstate RUNNING ;;
  if truthy r then
    log LError "failed to set state to %s" ;;
    err_pipe_write clone_flags pid lock (Some init) (Some val) err
  else
  failed <- wait_again pid (waitpid_script O) ;;
  if failed then
    log LSysError "failed to wait the pid %d" ;;
    err_create_network pid lock (Some init) (Some val) err
  else
  r <- lxc_setstate STOPPING ;;
  log_when (truthy r) LError "failed to set state %s" ;;
  when (NETWORK_DESTROY && truthy (Z.land clone_flags CLONE_NEWNET))
    (r <- call EDestroyNetwork (conf_destroy_network_res O) ;;
     log_when (truthy r) LError "failed to destroy the network") ;;
  let err := 0 in
  out lock (Some init) (Some val) err.

(** [lxc_start], lines 48-102. *)
Definition lxc_start : M outcome :=
  let err := - LXC_ERROR_INTERNAL in
  lock <- call EGetLock (lxc_get_lock_res O) ;;
  if lock =? 0 then
    log LError "'%s' is busy" ;;
    ret (Returned (- LXC_ERROR_BUSY))
  else
  if lock <? 0 then
    log LError "failed to acquire lock on '%s':%s" ;;
    ret (Returned (- LXC_ERROR_INTERNAL))
  else
  r <- lxc_setstate STARTING ;;
  if truthy r then
    log LError "failed to set state %s" ;;
    out lock None None err
  else
  r <- call EReadlink (readlink_res O) ;;
  if r <? 0 then
    log LSysError "failed to read '/proc/self/fd/0'" ;;
    out lock None None err
  else
  r <- call ESocketpair (socketpair_res O) ;;
  if truthy r then
    log LSysError "failed to create communication socketpair" ;;
    out lock None None err
  else
  emit (EAddHandler SIGINT) ;;
  emit (EAddHandler SIGQUIT) ;;
  u <- call EHasUtsname (conf_has_utsname_res O) ;;
  n <- call EHasNetwork (conf_has_network_res O) ;;
  let clone_flags := compute_clone_flags u n in
  pid <- call (EForkNs clone_flags) (fork_ns_res O) ;;
  if pid <? 0 then
    log LSysError "failed to fork into a new namespace" ;;
    err_fork_ns lock None None err
  else
  if pid =? 0 then child
  else parent clone_flags pid lock.

End Start.

(** ** The resources the calls act on *)

(** The lock, the lifecycle state of the container, its namespace-group
    registration, its network, and the pid record (path and content). *)
Record World := {
  w_lock : bool;
  w_state : option lxc_state;
  w_nsgroup : bool;
  w_network : bool;
  w_pidfile : option (string * string)
}.

Definition clean : World :=
  {| w_lock := false; w_state := None; w_nsgroup := false;
     w_network := false; w_pidfile := None |}.

(** The collaborators behind these resources (lock, state record,
    namespace group, network) are not in start.c.  Their effect is taken
    from the spec, resource by resource: a call has its effect when its
    status is success by the test [lxc_start] applies to it, and changes
    nothing when it reports failure; a teardown call that reports no
    status the spec speaks of ([lxc_put_lock], [lxc_unlink_nsgroup],
    [unlink]) removes its resource. *)

(** Modelled from the spec: [lxc_get_lock] and [lxc_put_lock], the lock
    manager of section 4.1 (acquire gives held, busy or error). *)
Definition lock_step (held : bool) (e : event) : bool :=
  match e with
  | EGetLock r => if (r =? 0) || (r <? 0) then held else true
  | EPutLock _ => false
  | _ => held
  end.

(** Modelled from the spec: [lxc_setstate], section 4.2; a failed call
    leaves the state as it was. *)
Definition state_step (st : option lxc_state) (e : event) : option lxc_state :=
  match e with
  | ESetState s r => if truthy r then st else Some s
  | _ => st
  end.

(** Modelled from the spec: [lxc_link_nsgroup] and [lxc_unlink_nsgroup],
    the namespace-group registration of section 6. *)
Definition nsgroup_step (registered : bool) (e : event) : bool :=
  match e with
  | ELinkNsgroup _ r => if truthy r then registered else true
  | EUnlinkNsgroup => false
  | _ => registered
  end.

(** Modelled from the spec: [conf_create_network] and
    [conf_destroy_network], the network resource of section 6; each gives
    ok or error, and a call that reports an error leaves the network as it
    was, also where [lxc_start] does not look at the status. *)
Definition network_step (up : bool) (e : event) : bool :=
  match e with
  | ECreateNetwork _ r => if truthy r then up else true
  | EDestroyNetwork r => if truthy r then up else false
  | _ => up
  end.

(** The pid record in the file system: [open] with O_CREAT|O_TRUNC
    creates or empties it, [write] appends the bytes it reports written,
    [unlink] of its path removes it, and [unlink] of a buffer that was
    never filled leaves it alone. *)
Definition pidfile_step (f : option (string * string)) (e : event)
  : option (string * string) :=
  match e with
  | EOpen path fd => if fd <? 0 then f else Some (path, EmptyString)
  | EWriteFile _ buf _ r =>
      match f with
      | Some (path, content) =>
          if r <? 0 then f
          else Some (path, (content ++ substring 0 (Z.to_nat r) buf)%string)
      | None => None
      end
  | EUnlink (Some p) =>
      match f with
      | Some (path, content) =>
          if String.eqb p path then None else f
      | None => None
      end
  | _ => f
  end.

Definition step (w : World) (e : event) : World :=
  {| w_lock := lock_step (w_lock w) e;
     w_state := state_step (w_state w) e;
     w_nsgroup := nsgroup_step (w_nsgroup w) e;
     w_network := network_step (w_network w) e;
     w_pidfile := pidfile_step (w_pidfile w) e |}.

(** The world after a trace. *)
Definition run_world (w : World) (tr : list event) : World :=
  fold_left step tr w.

(** ** Observations on a trace *)

(** The byte counts the launcher's reads of its channel end returned. *)
Definition parent_reads (tr : list event) : list Z :=
  flat_map (fun e => match e with ERead Sv1 _ r => [r] | _ => [] end) tr.

(** The writes the spawned process made on its channel end. *)
Definition child_writes (tr : list event) : list Z :=
  flat_map (fun e => match e with EWrite Sv0 _ r => [r] | _ => [] end) tr.

(** The lifecycle transitions attempted, in order. *)
Definition transitions (tr : list event) : list lxc_state :=
  flat_map (fun e => match e with ESetState s _ => [s] | _ => [] end) tr.

(** The transitions that succeeded. *)
Definition transitions_done (tr : list event) : list lxc_state :=
  flat_map (fun e => match e with
                     | ESetState s r => if truthy r then [] else [s]
                     | _ => [] end) tr.

(** How many times the lock was released. *)
Definition lock_releases (tr : list event) : nat :=
  List.length
    (flat_map (fun e => match e with EPutLock _ => [e] | _ => [] end) tr).

(** The results (return value, errno) of the [waitpid] calls. *)
Definition waitpid_calls (tr : list event) : list (Z * Z) :=
  flat_map (fun e => match e with
                     | EWaitpid _ r errno => [(r, errno)] | _ => [] end) tr.

Definition kills (tr : list event) : list (Z * signal) :=
  flat_map (fun e => match e with EKill p s => [(p, s)] | _ => [] end) tr.

(** The calls that touch the pid record: [open] and [write]. *)
Definition record_writes (tr : list event) : list event :=
  flat_map (fun e => match e with
                     | EOpen _ _ | EWriteFile _ _ _ _ => [e] | _ => [] end) tr.

Definition unlinks (tr : list event) : list (option string) :=
  flat_map (fun e => match e with EUnlink p => [p] | _ => [] end) tr.

Definition execs (tr : list event) : list (option Z) :=
  flat_map (fun e => match e with EExecvp _ r => [r] | _ => [] end) tr.

Definition forks (tr : list event) : list (Z * Z) :=
  flat_map (fun e => match e with EForkNs f r => [(f, r)] | _ => [] end) tr.

(** The buffer and length handed to each [write] on the pid record. *)
Definition file_writes (tr : list event) : list (string * Z) :=
  flat_map (fun e => match e with
                     | EWriteFile _ buf n _ => [(buf, n)] | _ => [] end) tr.

Definition opens (tr : list event) : list string :=
  flat_map (fun e => match e with EOpen p _ => [p] | _ => [] end) tr.

(** The calls of the cleanup block, label [out]. *)
Definition cleanup_calls (tr : list event) : list event :=
  flat_map (fun e => match e with
                     | ESetState STOPPED _ | EUnlinkNsgroup | EUnlink _
                     | EFree _ | EPutLock _ | EDelHandler _ => [e]
                     | _ => [] end) tr.

(** What the process does after the [n]-th read of the launcher's channel
    end. *)
Fixpoint after_reads (n : nat) (tr : list event) {struct tr} : list event :=
  match n, tr with
  | O, _ => tr
  | S _, [] => []
  | S n', ERead Sv1 _ _ :: tr' => after_reads n' tr'
  | S _, _ :: tr' => after_reads n tr'
  end.

(** The part of the run that precedes the first [open] or [write] of the
    pid record. *)
Fixpoint before_record (tr : list event) : list event :=
  match tr with
  | [] => []
  | EOpen _ _ :: _ | EWriteFile _ _ _ _ :: _ => []
  | e :: tr' => e :: before_record tr'
  end.

(** The calls that bear on the lifecycle state or on the pid record. *)
Definition lifetime_event (e : event) : bool :=
  match e with
  | ESetState _ _ | EOpen _ _ | EWriteFile _ _ _ _ | EUnlink _ => true
  | _ => false
  end.

(** All the points of a run: the prefixes of its trace. *)
Fixpoint prefixes {A} (l : list A) : list (list A) :=
  match l with
  | [] => [[]]
  | x :: l' => [] :: map (cons x) (prefixes l')
  end.


(** The run reached the wait loop, and the loop ended on an error. *)
Definition wait_failed (O : Oracle) (tr : list event) : Prop :=
  In RUNNING (transitions_done tr) /\
  snd (wait_again (fork_ns_res O) (waitpid_script O)) = true.

(** Calls that leave every resource alone. *)
Definition is_waitpid (e : event) : Prop :=
  match e with EWaitpid _ _ _ => True | _ => False end.

Definition is_log (e : event) : Prop :=
  match e with ELog _ _ => True | _ => False end.

(** A result of [waitpid] that reports an interruption. *)
Definition interrupted (x : Z * Z) : Prop := fst x < 0 /\ snd x = EINTR.

(** ** Sample environments *)

(** An environment in which every call succeeds except as the arguments
    say: the result of [fork_ns], of [readlink], of the launcher's
    continue write and final read, of [open] and [write] on the pid
    record, of [mount] in the child, and the script of [waitpid]. *)
Definition env (fork rdlink wcont routcome ropen wpid rmount : Z)
    (script : list (Z * Z)) : Oracle :=
  {| lxc_get_lock_res := 3;
     lxc_setstate_res := fun _ => 0;
     readlink_res := rdlink;
     ttyname_val := "/dev/pts/0";
     socketpair_res := 0;
     conf_has_utsname_res := 1;
     conf_has_network_res := 1;
     fork_ns_res := fork;
     child_write_ready_res := 4;
     child_read_continue_res := 4;
     lxc_setup_res := 0;
     child_write_setup_res := 4;
     mount_res := rmount;
     prctl_res := 0;
     execvp_res := None;
     child_write_exec_res := 4;
     read_ready_res := 4;
     lxc_link_nsgroup_res := 0;
     conf_create_network_res := 0;
     write_continue_res := wcont;
     read_outcome_res := routcome;
     open_res := ropen;
     write_pid_res := wpid;
     waitpid_script := script;
     conf_destroy_network_res := 0 |}.

(** Every call succeeds; the child is process 1234 and exits at the first
    wait. *)
Definition all_ok : Oracle := env 1234 10 4 0 5 5 0 [(1234, 0)].

(** [readlink] of the terminal fails. *)
Definition readlink_fails : Oracle := env 1234 (-1) 4 0 5 5 0 [].

(** The launcher cannot send the continue signal. *)
Definition continue_fails : Oracle := env 1234 10 (-1) 0 5 5 0 [].

(** The child reports a failure: the final read returns the four bytes of
    [sync]. *)
Definition child_fails : Oracle := env 1234 10 4 4 5 5 0 [(1234, 0)].

(** The pid record cannot be opened. *)
Definition open_fails : Oracle := env 1234 10 4 0 (-1) 5 0 [].

(** In the spawned process, the console bind mount fails. *)
Definition mount_fails : Oracle := env 0 10 4 0 5 5 (-1) [].

(** The wait for the child is interrupted twice. *)
Definition interrupted_twice : Oracle :=
  env 1234 10 4 0 5 5 0 [(-1, EINTR); (-1, EINTR); (1234, 0)].

(** A sample build and call: error codes 1 and 2, container c1. *)
Definition sample_argv : list string := ["/sbin/init"%string].

Definition sample_start (network_destroy : bool) (O : Oracle) : M outcome :=
  lxc_start 1 2 "/var/lib/lxc" network_destroy "c1" sample_argv O.

(** ** Further observations *)

(** The signals whose terminal handler was installed, and removed. *)
Definition handler_adds (tr : list event) : list signal :=
  flat_map (fun e => match e with EAddHandler s => [s] | _ => [] end) tr.

Definition handler_dels (tr : list event) : list signal :=
  flat_map (fun e => match e with EDelHandler s => [s] | _ => [] end) tr.

(** How many times each end of the socketpair was closed, and the
    descriptors given to [close] for the pid record. *)
Definition sv0_closes (tr : list event) : nat :=
  List.length
    (flat_map (fun e => match e with EClose Sv0 => [e] | _ => [] end) tr).

Definition sv1_closes (tr : list event) : nat :=
  List.length
    (flat_map (fun e => match e with EClose Sv1 => [e] | _ => [] end) tr).

Definition fd_closes (tr : list event) : list Z :=
  flat_map (fun e => match e with EClose (Fd fd) => [fd] | _ => [] end) tr.

(** The pointers given to [free]. *)
Definition frees (tr : list event) : list (option string) :=
  flat_map (fun e => match e with EFree v => [v] | _ => [] end) tr.

(** The launcher's side of the handshake, in order: its reads and writes
    on the channel and the two setup calls that need the child's pid. *)
Definition handshake (tr : list event) : list event :=
  flat_map (fun e => match e with
                     | ERead Sv1 _ _ | EWrite Sv1 _ _
                     | ELinkNsgroup _ _ | ECreateNetwork _ _ => [e]
                     | _ => [] end) tr.

(** The launcher's writes on its channel end. *)
Definition parent_writes (tr : list event) : list Z :=
  flat_map (fun e => match e with EWrite Sv1 _ r => [r] | _ => [] end) tr.

(** What the process still does after [lxc_put_lock]. *)
Fixpoint after_unlock (tr : list event) : list event :=
  match tr with
  | [] => []
  | EPutLock _ :: tr' => tr'
  | _ :: tr' => after_unlock tr'
  end.

(** The environment [O] with other statuses for the calls whose failure
    [lxc_start] only logs: [lxc_link_nsgroup], the transitions to
    STOPPING, STOPPED and ABORTING, and [conf_destroy_network]. *)
Definition with_logged_statuses (link stopping stopped aborting destroy : Z)
    (O : Oracle) : Oracle :=
  {| lxc_get_lock_res := lxc_get_lock_res O;
     lxc_setstate_res := fun s =>
       match s with
       | STOPPING => stopping
       | STOPPED => stopped
       | ABORTING => aborting
       | _ => lxc_setstate_res O s
       end;
     readlink_res := readlink_res O;
     ttyname_val := ttyname_val O;
     socketpair_res := socketpair_res O;
     conf_has_utsname_res := conf_has_utsname_res O;
     conf_has_network_res := conf_has_network_res O;
     fork_ns_res := fork_ns_res O;
     child_write_ready_res := child_write_ready_res O;
     child_read_continue_res := child_read_continue_res O;
     lxc_setup_res := lxc_setup_res O;
     child_write_setup_res := child_write_setup_res O;
     mount_res := mount_res O;
     prctl_res := prctl_res O;
     execvp_res := execvp_res O;
     child_write_exec_res := child_write_exec_res O;
     read_ready_res := read_ready_res O;
     lxc_link_nsgroup_res := link;
     conf_create_network_res := conf_create_network_res O;
     write_continue_res := write_continue_res O;
     read_outcome_res := read_outcome_res O;
     open_res := open_res O;
     write_pid_res := write_pid_res O;
     waitpid_script := waitpid_script O;
     conf_destroy_network_res := destroy |}.

(** At the point [pre] of a run started on a clean container: if the
    cleanup has not unlinked the pid record yet and the state is RUNNING,
    the record is the file [f] (path and content). *)
Definition running_record_is (f : string * string) (pre : list event)
  : Prop :=
  unlinks pre = [] ->
  w_state (run_world clean pre) = Some RUNNING ->
  w_pidfile (run_world clean pre) = Some f.

(** The calls of a run without what a logged failure can change: the log
    calls are dropped, and the statuses of the calls whose failure is only
    logged are erased. *)
Definition calls_made (tr : list event) : list event :=
  flat_map (fun e => match e with
                     | ELog _ _ => []
                     | ESetState STOPPING _ => [ESetState STOPPING 0]
                     | ESetState STOPPED _ => [ESetState STOPPED 0]
                     | ESetState ABORTING _ => [ESetState ABORTING 0]
                     | ELinkNsgroup pid _ => [ELinkNsgroup pid 0]
                     | EDestroyNetwork _ => [EDestroyNetwork 0]
                     | _ => [e] end) tr.

(** All the namespace flags. *)
Definition CLONE_NEW_ALL : Z :=
  Z.lor (Z.lor (Z.lor (Z.lor CLONE_NEWPID CLONE_NEWIPC) CLONE_NEWNS)
           CLONE_NEWUTS) CLONE_NEWNET.

(** The calls of [conf_create_network] (pid and status) and the statuses
    of the calls of [conf_destroy_network]. *)
Definition network_creates (tr : list event) : list (Z * Z) :=
  flat_map (fun e => match e with
                     | ECreateNetwork pid r => [(pid, r)] | _ => [] end) tr.

Definition destroy_calls (tr : list event) : list Z :=
  flat_map (fun e => match e with EDestroyNetwork r => [r] | _ => [] end) tr.

(** The continue signal cannot be sent and the network teardown reports
    an error. *)
Definition destroy_fails : Oracle :=
  with_logged_statuses 0 0 0 0 (-1) continue_fails.

(** A container on which an earlier run left a pid record behind. *)
Definition stale_record : World :=
  {| w_lock := false; w_state := None; w_nsgroup := false;
     w_network := false;
     w_pidfile := Some ("/var/lib/lxc/c1/init"%string,
                        format_pid 999) |}.

(** More sample environments: the spawn fails; the child leaves without
    reporting; a call that is only logged fails. *)
Definition fork_fails : Oracle := env (-1) 10 4 0 5 5 0 [].

Definition logged_failures (O : Oracle) : Oracle :=
  with_logged_statuses (-1) (-1) (-1) (-1) (-1) O.

(** * Properties *)

(** ** Calls that leave the resources alone *)

Lemma wait_again_only_waits pid script :
  Forall is_waitpid (fst (wait_again pid script)).
Proof.
  induction script as [|[r errno] script IH]; simpl.
  - repeat constructor.
  - destruct (r <? 0); [destruct (errno =? EINTR)|]; simpl.
    + destruct (wait_again pid script); constructor; [exact I|exact IH].
    + repeat constructor.
    + repeat constructor.
Qed.

Lemma log_when_only_logs b lvl fmt :
  Forall is_log (fst (log_when b lvl fmt)).
Proof. destruct b; repeat constructor. Qed.

Lemma flat_map_skip {B} (P : event -> Prop) (f : event -> list B)
    (l rest : list event) :
  Forall P l -> (forall e, P e -> f e = []) ->
  flat_map f (l ++ rest) = flat_map f rest.
Proof.
  intros Hl Hf. rewrite flat_map_app.
  induction Hl as [|e l He _ IH]; simpl; [reflexivity|].
  now rewrite (Hf e He).
Qed.

Lemma fold_skip {S} (P : event -> Prop) (f : S -> event -> S)
    (l rest : list event) (s : S) :
  Forall P l -> (forall e s', P e -> f s' e = s') ->
  fold_left f (l ++ rest) s = fold_left f rest s.
Proof.
  intros Hl Hs. rewrite fold_left_app. f_equal.
  induction Hl as [|e l He _ IH]; simpl; [reflexivity|].
  now rewrite (Hs e s He).
Qed.

(** Each resource evolves on its own. *)
Lemma run_world_fields (w : World) (tr : list event) :
  run_world w tr =
  {| w_lock := fold_left lock_step tr (w_lock w);
     w_state := fold_left state_step tr (w_state w);
     w_nsgroup := fold_left nsgroup_step tr (w_nsgroup w);
     w_network := fold_left network_step tr (w_network w);
     w_pidfile := fold_left pidfile_step tr (w_pidfile w) |}.
Proof.
  unfold run_world. revert w.
  induction tr as [|e tr IH]; intros w; [now destruct w|].
  cbn [fold_left]. rewrite IH. reflexivity.
Qed.

Lemma w_lock_run w tr :
  w_lock (run_world w tr) = fold_left lock_step tr (w_lock w).
Proof. now rewrite run_world_fields. Qed.

Lemma w_state_run w tr :
  w_state (run_world w tr) = fold_left state_step tr (w_state w).
Proof. now rewrite run_world_fields. Qed.

Lemma w_nsgroup_run w tr :
  w_nsgroup (run_world w tr) = fold_left nsgroup_step tr (w_nsgroup w).
Proof. now rewrite run_world_fields. Qed.

Lemma w_network_run w tr :
  w_network (run_world w tr) = fold_left network_step tr (w_network w).
Proof. now rewrite run_world_fields. Qed.

Lemma w_pidfile_run w tr :
  w_pidfile (run_world w tr) = fold_left pidfile_step tr (w_pidfile w).
Proof. now rewrite run_world_fields. Qed.

Lemma after_reads_skip (P : event -> Prop) (n : nat) (l rest : list event) :
  Forall P l ->
  (forall e, P e -> match e with ERead Sv1 _ _ => False | _ => True end) ->
  after_reads (S n) (l ++ rest) = after_reads (S n) rest.
Proof.
  intros Hl Hp. induction Hl as [|e l He _ IH]; [reflexivity|].
  specialize (Hp e He). cbn [app after_reads].
  destruct e; try exact IH.
  match goal with d : desc |- _ => destruct d end;
    first [exact IH | contradiction].
Qed.

Lemma before_record_skip (P : event -> Prop) (l rest : list event) :
  Forall P l ->
  (forall e, P e -> match e with
                    | EOpen _ _ | EWriteFile _ _ _ _ => False
                    | _ => True end) ->
  before_record (l ++ rest) = l ++ before_record rest.
Proof.
  intros Hl Hp. induction Hl as [|e l He _ IH]; [reflexivity|].
  specialize (Hp e He). cbn [app before_record].
  destruct e; try contradiction; now rewrite IH.
Qed.

Lemma truthy_true (z : Z) : truthy z = true <-> z <> 0.
Proof.
  unfold truthy. destruct (Z.eqb_spec z 0); simpl; split; congruence.
Qed.

Lemma truthy_false (z : Z) : truthy z = false <-> z = 0.
Proof.
  unfold truthy. destruct (Z.eqb_spec z 0); simpl; split; congruence.
Qed.

(** ** Points of a run *)

Lemma prefixes_complete {A} (l pre post : list A) :
  l = pre ++ post -> In pre (prefixes l).
Proof.
  revert l. induction pre as [|a pre IH]; intros l E; subst l.
  - destruct post; cbn; auto.
  - cbn. right. apply in_map. now apply IH.
Qed.

Lemma flat_map_filter {B} (p : event -> bool) (f : event -> list B)
    (l : list event) :
  (forall e, p e = false -> f e = []) ->
  flat_map f (filter p l) = flat_map f l.
Proof.
  intros Hf. induction l as [|e l IH]; [reflexivity|].
  cbn [filter flat_map]. destruct (p e) eqn:E.
  - cbn [flat_map]. now rewrite IH.
  - now rewrite (Hf e E), IH.
Qed.

Lemma fold_filter {S} (p : event -> bool) (g : S -> event -> S)
    (l : list event) (s : S) :
  (forall e s', p e = false -> g s' e = s') ->
  fold_left g (filter p l) s = fold_left g l s.
Proof.
  intros Hg. revert s. induction l as [|e l IH]; intros s; [reflexivity|].
  cbn [filter fold_left]. destruct (p e) eqn:E.
  - cbn [fold_left]. apply IH.
  - rewrite (Hg e s E). apply IH.
Qed.

Lemma filter_skip (P : event -> Prop) (p : event -> bool)
    (l rest : list event) :
  Forall P l -> (forall e, P e -> p e = false) ->
  filter p (l ++ rest) = filter p rest.
Proof.
  intros Hl Hp. rewrite filter_app.
  induction Hl as [|e l He _ IH]; cbn [filter app]; [reflexivity|].
  now rewrite (Hp e He).
Qed.

(** A property of the points of a run that only depends on the calls
    selected by [p] can be checked on the points of the selected calls. *)
Lemma points_by_filter (Q : list event -> Prop) (p : event -> bool)
    (tr : list event) :
  (forall l, Q (filter p l) -> Q l) ->
  Forall Q (prefixes (filter p tr)) ->
  forall pre post, tr = pre ++ post -> Q pre.
Proof.
  intros HQ HF pre post E. apply HQ.
  rewrite Forall_forall in HF. apply HF.
  apply (prefixes_complete _ _ (filter p post)).
  subst tr. apply filter_app.
Qed.


(** ** The wait loop *)

Lemma wait_again_interrupted pid r script :
  r < 0 ->
  wait_again pid ((r, EINTR) :: script)
  = (EWaitpid pid r EINTR :: fst (wait_again pid script),
     snd (wait_again pid script)).
Proof.
  intros Hr. cbn [wait_again]. unfold bind, emit.
  apply Z.ltb_lt in Hr. rewrite Hr. cbn.
  now destruct (wait_again pid script).
Qed.

Lemma wait_again_error pid r errno script :
  r < 0 -> errno <> EINTR ->
  wait_again pid ((r, errno) :: script) = ([EWaitpid pid r errno], true).
Proof.
  intros Hr He. cbn [wait_again]. unfold bind, emit, ret.
  apply Z.ltb_lt in Hr. apply Z.eqb_neq in He. now rewrite Hr, He.
Qed.

Lemma wait_again_reaped pid r errno script :
  0 <= r ->
  wait_again pid ((r, errno) :: script) = ([EWaitpid pid r errno], false).
Proof.
  intros Hr. cbn [wait_again]. unfold bind, emit, ret.
  apply Z.ltb_ge in Hr. now rewrite Hr.
Qed.

(** The loop fails exactly when the first result that is not an
    interruption is an error. *)
Lemma wait_again_fails_iff pid script :
  snd (wait_again pid script) = true <->
  exists pre r errno post,
    script = pre ++ (r, errno) :: post /\
    Forall interrupted pre /\ r < 0 /\ errno <> EINTR.
Proof.
  induction script as [|[r errno] script IH].
  - split; [discriminate|].
    intros (pre & r & errno & post & E & _). now destruct pre.
  - destruct (Z.ltb_spec r 0) as [Hr|Hr].
    + destruct (Z.eqb_spec errno EINTR) as [He|He].
      * subst errno. rewrite wait_again_interrupted by assumption.
        cbn [snd]. rewrite IH. split.
        -- intros (pre & r' & e' & post & E & Hpre & Hr' & He').
           exists ((r, EINTR) :: pre), r', e', post. subst script.
           repeat split; try assumption.
           constructor; [split; [exact Hr|reflexivity]|assumption].
        -- intros (pre & r' & e' & post & E & Hpre & Hr' & He').
           destruct pre as [|x pre]; cbn [app] in E.
           ++ inversion E; subst. congruence.
           ++ inversion E; subst. inversion Hpre; subst.
              exists pre, r', e', post. repeat split; assumption.
      * rewrite wait_again_error by assumption. split; [|reflexivity].
        intros _. exists [], r, errno, script.
        repeat split; [constructor|assumption|assumption].
    + rewrite wait_again_reaped by assumption. split; [discriminate|].
      intros (pre & r' & e' & post & E & Hpre & Hr' & He').
      destruct pre as [|x pre]; cbn [app] in E.
      * inversion E; subst. lia.
      * inversion E; subst. inversion Hpre as [|? ? [Hx _] _]; subst.
        cbn [fst] in Hx. lia.
Qed.

(** ** Path analysis *)

Ltac unfold_start :=
  unfold lxc_start, parent, child, err_write, err_pipe_write,
    err_create_network, err_fork_ns, out, out_child, lxc_setstate,
    when, call, emit, log, bind, ret.

(** One branch point of the run.  The wait loop and the messages logged
    on a failed status are not split: their traces stay abstract, as a
    list of [waitpid] calls and a list of log calls. *)
Ltac branch :=
  match goal with
  | |- context [wait_again ?p ?s] =>
      let Hw := fresh "Hwaits" in
      pose proof (wait_again_only_waits p s) as Hw;
      let wt := fresh "wt" in
      let failed := fresh "failed" in
      let E := fresh "Ewait" in
      destruct (wait_again p s) as [wt failed] eqn:E;
      cbn [fst] in Hw
  | |- context [log_when ?c ?l ?m] =>
      let Hl := fresh "Hlogs" in
      pose proof (log_when_only_logs c l m) as Hl;
      let lg := fresh "lg" in
      destruct (log_when c l m) as [lg []];
      cbn [fst] in Hl
  | |- context [if ?c then _ else _] => destruct c eqn:?
  | |- context [match ?x with Some _ => _ | None => _ end] => destruct x eqn:?
  end; cbn beta iota zeta.

Ltac paths :=
  unfold_start; cbn beta iota zeta; repeat branch; cbn [fst snd app].

(** Case analysis over the paths of a run: the goal is proved once per
    path, for the trace and the outcome of that path. *)
Ltac by_paths :=
  match goal with
  | |- context [lxc_start ?a ?b ?c ?d ?e ?f ?g] =>
      let tr := fresh "tr" in
      let res := fresh "res" in
      let E := fresh "Erun" in
      destruct (lxc_start a b c d e f g) as [tr res] eqn:E;
      revert E; paths; intros E; injection E as <- <-
  end.

(** Replace the tests already decided on this path by their value. *)
Ltac use_tests :=
  repeat match goal with
  | H : ?c = true |- context [?c] => rewrite H
  | H : ?c = false |- context [?c] => rewrite H
  end.

Ltac quiet_event :=
  let e := fresh "e" in
  let H := fresh "H" in
  intros e H; destruct e; try contradiction; reflexivity.

Ltac quiet_step :=
  let e := fresh "e" in
  let w := fresh "w" in
  let H := fresh "H" in
  intros e w H; destruct e; try contradiction; reflexivity.

Ltac quiet_shape :=
  let e := fresh "e" in
  let H := fresh "H" in
  intros e H; destruct e; try contradiction; exact I.

Ltac skip_quiet :=
  match goal with
  | H : Forall ?P ?l |- context [flat_map ?f (?l ++ ?rest)] =>
      rewrite (flat_map_skip P f l rest H) by quiet_event
  | H : Forall ?P ?l |- context [fold_left ?f (?l ++ ?rest) ?w] =>
      rewrite (fold_skip P f l rest w H) by quiet_step
  | H : Forall ?P ?l |- context [after_reads (S ?n) (?l ++ ?rest)] =>
      rewrite (after_reads_skip P n l rest H) by quiet_shape
  | H : Forall ?P ?l |- context [before_record (?l ++ ?rest)] =>
      rewrite (before_record_skip P l rest H) by quiet_shape
  | H : Forall ?P ?l |- context [filter ?p (?l ++ ?rest)] =>
      rewrite (filter_skip P p l rest H) by quiet_event
  end.

(** State the resources of the world as folds over the trace. *)
Ltac resources :=
  rewrite ?w_lock_run, ?w_state_run, ?w_nsgroup_run, ?w_network_run,
    ?w_pidfile_run.

(** Evaluate the observations on the trace of the path. *)
Ltac observe :=
  unfold parent_reads, child_writes, transitions,
    transitions_done, lock_releases, waitpid_calls, kills, record_writes,
    unlinks, execs, forks, file_writes, opens,
    cleanup_calls;
  cbn [flat_map app List.length fold_left after_reads before_record
       filter lifetime_event];
  repeat (skip_quiet;
          cbn [flat_map app List.length fold_left after_reads before_record
               filter lifetime_event]);
  cbn [lock_step state_step nsgroup_step network_step pidfile_step
       w_lock w_state w_nsgroup w_network w_pidfile clean];
  repeat (progress (use_tests; rewrite ?String.eqb_refl);
          cbn [flat_map app List.length
               lock_step state_step nsgroup_step network_step pidfile_step]).

(** Turn the tests of the path into arithmetic facts. *)
Ltac facts :=
  repeat match goal with
  | H : (_ <? _) = true |- _ => apply Z.ltb_lt in H
  | H : (_ <? _) = false |- _ => apply Z.ltb_ge in H
  | H : (_ >? _) = true |- _ => rewrite Z.gtb_ltb in H; apply Z.ltb_lt in H
  | H : (_ >? _) = false |- _ => rewrite Z.gtb_ltb in H; apply Z.ltb_ge in H
  | H : (_ =? _) = true |- _ => apply Z.eqb_eq in H
  | H : (_ =? _) = false |- _ => apply Z.eqb_neq in H
  | H : truthy _ = true |- _ => apply truthy_true in H
  | H : truthy _ = false |- _ => apply truthy_false in H
  end.

(** The same, for the code of the spawned process alone. *)
Ltac by_child_paths :=
  match goal with
  | |- context [child ?a ?o] =>
      let tr := fresh "tr" in
      let res := fresh "res" in
      let E := fresh "Erun" in
      destruct (child a o) as [tr res] eqn:E;
      revert E; paths; intros E; injection E as <- <-
  end.

(** Split on the tests the path left open (statuses that are only
    logged). *)
Ltac open_tests :=
  repeat (match goal with
          | |- context [if ?c then _ else _] => destruct c eqn:?
          end; cbn [app flat_map List.length]).


(** Membership in a list that is known. *)
Ltac not_in :=
  solve [ cbn [In]; unfold not;
          repeat match goal with
          | |- _ \/ _ -> _ =>
              let H := fresh in
              intros [H|H]; [first [discriminate H | congruence] | revert H]
          | |- False -> _ => intros []
          end ].

Section Proofs.

Variables (LXC_ERROR_BUSY LXC_ERROR_INTERNAL : Z).
Variable LXCPATH : string.
Variable NETWORK_DESTROY : bool.
Variable name : string.
Variable argv : list string.
Variable O : Oracle.

Local Abbreviation run :=
  (lxc_start LXC_ERROR_BUSY LXC_ERROR_INTERNAL LXCPATH NETWORK_DESTROY
     name argv O).

(** C7. The flags handed to [fork_ns] are those computed from the two
    configuration queries; they always contain the pid, ipc and mount
    flags, contain the uts flag exactly when the configuration has a
    utsname and the net flag exactly when it has a network, and are the
    three base flags when it has neither. *)
Theorem clone_flags_follow_configuration :
  (forall f r, In (f, r) (forks (fst run)) ->
     f = compute_clone_flags (conf_has_utsname_res O)
                             (conf_has_network_res O)) /\
  (forall u n,
     Z.land (compute_clone_flags u n) CLONE_NEWPID = CLONE_NEWPID /\
     Z.land (compute_clone_flags u n) CLONE_NEWIPC = CLONE_NEWIPC /\
     Z.land (compute_clone_flags u n) CLONE_NEWNS = CLONE_NEWNS /\
     (Z.land (compute_clone_flags u n) CLONE_NEWUTS = CLONE_NEWUTS
      <-> u <> 0) /\
     (Z.land (compute_clone_flags u n) CLONE_NEWNET = CLONE_NEWNET
      <-> n <> 0)) /\
  compute_clone_flags 0 0
  = Z.lor (Z.lor CLONE_NEWPID CLONE_NEWIPC) CLONE_NEWNS.
Proof.
  split; [|split; [|reflexivity]].
  - intros f r. by_paths; observe; cbn [In].
    all: intros H; repeat destruct H as [H|H]; try contradiction;
      now inversion H.
  - intros u n. unfold compute_clone_flags.
    destruct (truthy u) eqn:Hu, (truthy n) eqn:Hn; facts.
    all: repeat split; try reflexivity; try assumption;
      try (intros _; assumption).
    all: try (intros H; vm_compute in H; discriminate).
    all: intros H; congruence.
Qed.

(** C1. When the launcher's final read of the channel completes without
    error, a read of zero bytes takes the run on to recording the pid
    and, if that and the RUNNING transition succeed, to RUNNING and to a
    return of 0 once the child is waited for; a read of one or more bytes
    makes the launcher reap the child and unwind through ABORTING, the
    kill and the cleanup, without recording a pid or setting RUNNING, and
    the value returned is not 0. *)
Theorem final_read_classification :
  forall r1 r2, parent_reads (fst run) = [r1; r2] -> 0 <= r2 ->
    (r2 = 0 ->
     (exists rest,
        after_reads 2 (fst run)
        = EAsprintf (format_pid (fork_ns_res O))
            :: ESnprintf (init_path LXCPATH name)
            :: EOpen (init_path LXCPATH name) (open_res O) :: rest) /\
     (0 <= open_res O -> 0 <= write_pid_res O ->
      lxc_setstate_res O RUNNING = 0 ->
      In RUNNING (transitions_done (fst run)) /\
      (snd (wait_again (fork_ns_res O) (waitpid_script O)) = false ->
       snd run = Returned 0))) /\
    (0 < r2 ->
     (exists r errno rest,
        after_reads 2 (fst run)
        = ELog LError "something went wrong with %d"
            :: EWaitpid (fork_ns_res O) r errno :: rest /\
        transitions rest = [ABORTING; STOPPED] /\
        kills rest = [(fork_ns_res O, SIGKILL)]) /\
     record_writes (fst run) = [] /\
     ~ In RUNNING (transitions (fst run)) /\
     snd run <> Returned 0).
Proof.
  intros r1 r2. by_paths; observe; cbn [fst snd]; intros Hreads;
    try discriminate.
  all: injection Hreads as <- <-; intros Hr; facts; try lia.
  all: split; intros H0; try lia.
  all: split.
  all: try (eexists; reflexivity).
  all: try (do 3 eexists; split; [reflexivity|]; observe;
            split; reflexivity).
  all: try (intros Ho Hw Hs;
            first [ lia
                  | split;
                    [open_tests; cbn [In]; now auto
                    |intros Hf; first [discriminate Hf | reflexivity]] ]).
  all: split; [reflexivity|split; [not_in|]].
  all: intros E; injection E; lia.
Qed.

(** C3. The value returned on the child-failure branch is the byte count
    of the final read, and on a failure to open or write the pid record
    it is 0: neither is the internal-error code. *)
Theorem failure_branches_miss_internal_error :
  forall r1 r2, 0 < LXC_ERROR_INTERNAL ->
    parent_reads (fst run) = [r1; r2] ->
    (0 < r2 ->
     snd run = Returned r2 /\
     snd run <> Returned (- LXC_ERROR_INTERNAL)) /\
    (r2 = 0 -> open_res O < 0 \/ write_pid_res O < 0 ->
     snd run = Returned 0 /\
     snd run <> Returned (- LXC_ERROR_INTERNAL)).
Proof.
  intros r1 r2 Hcode. by_paths; observe; cbn [fst snd];
    intros Hreads; try discriminate.
  all: injection Hreads as <- <-; facts.
  all: split; [intros Hr|intros Hr Hrec]; try lia.
  all: split; [first [reflexivity | f_equal; lia]|].
  all: intros Heq; injection Heq; lia.
Qed.

(** C9. When the final read returned zero bytes and the pid record
    cannot be opened or written, the run goes through the failure
    unwind (the ABORTING transition is attempted and the child is sent
    SIGKILL), never attempts RUNNING, and returns 0. *)
Theorem pid_record_failure_returns_zero :
  forall r1, parent_reads (fst run) = [r1; 0] ->
    open_res O < 0 \/ write_pid_res O < 0 ->
    In ABORTING (transitions (fst run)) /\
    kills (fst run) = [(fork_ns_res O, SIGKILL)] /\
    ~ In RUNNING (transitions (fst run)) /\
    snd run = Returned 0.
Proof.
  intros r1. by_paths; observe; cbn [fst snd];
    intros Hreads; try discriminate.
  all: injection Hreads as <- Hr0; intros Hrec; facts; try lia.
  all: repeat split; try reflexivity; try not_in; try (f_equal; lia).
  all: cbn [In]; auto.
Qed.

(** When [fork_ns] returns 0 the process is the spawned one: after the
    nine calls up to the fork it runs [child], and leaves as [child]
    does. *)
Lemma spawned_process_runs_child :
  forall f, forks (fst run) = [(f, 0)] ->
    skipn 9 (fst run) = fst (child argv O) /\
    snd run = snd (child argv O).
Proof.
  intros f. destruct run as [tr res] eqn:Erun. revert Erun.
  unfold lxc_start. destruct (child argv O) as [ctr cres].
  paths; intros Erun; injection Erun as <- <-.
  all: observe; cbn [fst snd skipn]; intros Hf; try discriminate Hf.
  all: try (split; reflexivity).
  all: injection Hf as _ Hpid; facts; lia.
Qed.

(** C2. After the continue signal, a failure of [lxc_setup] and a
    failure of [execvp] make the child write the outcome word and exit
    with status 1; a failure of the console bind mount or of the
    capability drop makes it exit with status 1 and write nothing.
    In none of the three failures before it is [execvp] called. *)
Theorem child_failure_modes :
  0 <= child_write_ready_res O -> 0 <= child_read_continue_res O ->
    (lxc_setup_res O <> 0 ->
     child_writes (fst (child argv O))
     = [child_write_ready_res O; child_write_setup_res O] /\
     execs (fst (child argv O)) = [] /\
     snd (child argv O) = Exited 1) /\
    (lxc_setup_res O = 0 -> mount_res O <> 0 ->
     child_writes (fst (child argv O)) = [child_write_ready_res O] /\
     execs (fst (child argv O)) = [] /\
     snd (child argv O) = Exited 1) /\
    (lxc_setup_res O = 0 -> mount_res O = 0 -> prctl_res O <> 0 ->
     child_writes (fst (child argv O)) = [child_write_ready_res O] /\
     execs (fst (child argv O)) = [] /\
     snd (child argv O) = Exited 1) /\
    (lxc_setup_res O = 0 -> mount_res O = 0 -> prctl_res O = 0 ->
     forall r, execvp_res O = Some r ->
     child_writes (fst (child argv O))
     = [child_write_ready_res O; child_write_exec_res O] /\
     snd (child argv O) = Exited 1).
Proof.
  by_child_paths; observe; cbn [fst snd]; intros Hw Hr; facts; try lia.
  all: repeat split; intros; try discriminate; try reflexivity;
    try congruence.
Qed.

(** C8. In the wait for the child, an interrupted [waitpid] is followed
    by another [waitpid]; the loop fails only on an error that is not an
    interruption.  Once RUNNING is set, the run attempts ABORTING and
    kills the child exactly when the loop failed, and otherwise goes on
    to return 0. *)
Theorem wait_retries_on_interruption :
  (forall pid r script, r < 0 ->
     wait_again pid ((r, EINTR) :: script)
     = (EWaitpid pid r EINTR :: fst (wait_again pid script),
        snd (wait_again pid script))) /\
  (forall pid script,
     snd (wait_again pid script) = true <->
     exists pre r errno post,
       script = pre ++ (r, errno) :: post /\
       Forall interrupted pre /\ r < 0 /\ errno <> EINTR) /\
  (In RUNNING (transitions_done (fst run)) ->
     waitpid_calls (fst run)
     = waitpid_calls
         (fst (wait_again (fork_ns_res O) (waitpid_script O))) /\
     (snd (wait_again (fork_ns_res O) (waitpid_script O)) = false ->
      ~ In ABORTING (transitions (fst run)) /\ snd run = Returned 0) /\
     (snd (wait_again (fork_ns_res O) (waitpid_script O)) = true ->
      In ABORTING (transitions (fst run)) /\
      kills (fst run) = [(fork_ns_res O, SIGKILL)])).
Proof.
  split; [exact wait_again_interrupted|].
  split; [exact wait_again_fails_iff|].
  by_paths; observe; cbn [fst snd]; open_tests; intros Hrun.
  all: try (exfalso; revert Hrun; not_in).
  all: clear Hrun; split;
    [rewrite flat_map_app; observe; now rewrite app_nil_r|].
  all: split; intros Hf; try discriminate.
  all: split; try reflexivity; try not_in.
  all: cbn [In]; auto.
Qed.

(** C4, as amended. A run that spawned the child and does not get the
    state to RUNNING attempts the ABORTING transition; a run that fails
    before a child exists (readlink, socketpair or spawn failure) goes
    from STARTING to the STOPPED transition of the cleanup block and
    returns the internal-error code; RUNNING is attempted only after the
    final read returned zero bytes. *)
Theorem aborting_after_spawn_only :
  (forall f pid, forks (fst run) = [(f, pid)] -> 0 < pid ->
     ~ In RUNNING (transitions_done (fst run)) ->
     In ABORTING (transitions (fst run))) /\
  (0 < lxc_get_lock_res O -> lxc_setstate_res O STARTING = 0 ->
     (forall f pid, In (f, pid) (forks (fst run)) -> pid < 0) ->
     transitions (fst run) = [STARTING; STOPPED] /\
     snd run = Returned (- LXC_ERROR_INTERNAL)) /\
  (In RUNNING (transitions (fst run)) ->
     exists r1, parent_reads (fst run) = [r1; 0]).
Proof.
  by_paths; observe; cbn [fst snd]; open_tests.
  all: split; [|split];
    [intros f pid Hf Hpid Hrun | intros Hlock Hst Hf | intros Hrun].
  all: facts; try discriminate; try lia.
  all: try (cbn [In]; now auto).
  all: try (exfalso; revert Hrun; not_in).
  all: try (exfalso; apply Hrun; cbn [In]; now auto).
  all: try (injection Hf as <- <-; lia).
  all: try (specialize (Hf _ _ (or_introl eq_refl)); lia).
  all: try (split; reflexivity).
  all: assert (read_outcome_res O = 0) as -> by lia;
    eexists; reflexivity.
Qed.


(** C6, as amended. On every path on which [lxc_start] returns after
    the lock was acquired, the whole cleanup block runs, whatever the
    status of its first call: the lock is released exactly once, the
    namespace group is unregistered, and a container that had no pid
    record when the run began has none when it returns.  In a build that
    defines NETWORK_DESTROY, unless the run failed in the final
    [waitpid], a network this run created is handed to
    [conf_destroy_network], once; and when that call succeeds a container
    that had no network when the run began has none when it returns. *)
Theorem cleanup_after_lock :
  forall v w, snd run = Returned v -> 0 < lxc_get_lock_res O ->
    (exists init val,
       cleanup_calls (fst run)
       = [ESetState STOPPED (lxc_setstate_res O STOPPED); EUnlinkNsgroup;
          EUnlink init; EFree val; EPutLock (lxc_get_lock_res O);
          EDelHandler SIGQUIT; EDelHandler SIGINT]) /\
    lock_releases (fst run) = 1%nat /\
    w_lock (run_world w (fst run)) = false /\
    w_nsgroup (run_world w (fst run)) = false /\
    (w_pidfile w = None -> w_pidfile (run_world w (fst run)) = None) /\
    (NETWORK_DESTROY = true -> ~ wait_failed O (fst run) ->
     network_creates (fst run) = [(fork_ns_res O, 0)] ->
     destroy_calls (fst run) = [conf_destroy_network_res O]) /\
    (w_network w = false ->
     NETWORK_DESTROY = true -> conf_destroy_network_res O = 0 ->
     ~ wait_failed O (fst run) ->
     w_network (run_world w (fst run)) = false).
Proof.
  intros v w. unfold wait_failed, network_creates, destroy_calls.
  resources.
  by_paths; cbn [fst snd]; intros Hret Hlock; try discriminate.
  all: try (facts; lia).
  all: repeat match goal with |- _ /\ _ => split end.
  all: try (match goal with
            | |- w_pidfile _ = None -> _ => intros Hp; rewrite ?Hp
            end).
  all: try (match goal with
            | |- w_network _ = false -> _ =>
                intros Hn Hnd Hd Hwait; rewrite ?Hn;
                apply truthy_false in Hd
            end).
  all: try (match goal with
            | |- NETWORK_DESTROY = true -> _ => intros Hnd Hwait
            end).
  all: observe.
  all: try reflexivity; try (do 2 eexists; reflexivity).
  all: try (intros Hc; discriminate Hc).
  all: try (intros _; reflexivity).
  all: try (intros Hc; injection Hc as Hc; facts; congruence).
  all: try (rewrite Hnd in *; discriminate).
  all: try (intros _).
  all: exfalso; apply Hwait; split; [|reflexivity].
  all: observe; open_tests; cbn [In]; auto.
Qed.


End Proofs.

(** * The properties on sample runs *)

(** C1 on a run whose final read returns the four bytes of a failure
    report: no pid record is written. *)
Lemma final_read_classification_sample :
  parent_reads (fst (sample_start true child_fails)) = [4; 4] /\
  0 <= 4 /\
  record_writes (fst (sample_start true child_fails)) = [].
Proof.
  split; [reflexivity|]. split; [lia|].
  destruct (final_read_classification 1 2 "/var/lib/lxc" true "c1"
              sample_argv child_fails 4 4 eq_refl ltac:(lia)) as [_ H].
  destruct (H ltac:(lia)) as (_ & Hrec & _).
  exact Hrec.
Defined.

(** C2 on a child whose console bind mount fails: it exits with status 1
    and its only write is the ready signal. *)
Lemma child_failure_modes_sample :
  0 <= child_write_ready_res mount_fails /\
  0 <= child_read_continue_res mount_fails /\
  child_writes (fst (child sample_argv mount_fails)) = [4] /\
  snd (child sample_argv mount_fails) = Exited 1.
Proof.
  split; [vm_compute; discriminate|]. split; [vm_compute; discriminate|].
  destruct (child_failure_modes sample_argv mount_fails) as (_ & H & _).
  - vm_compute; discriminate.
  - vm_compute; discriminate.
  - destruct H as (Hw & _ & Hs).
    + reflexivity.
    + vm_compute; discriminate.
    + split; [exact Hw | exact Hs].
Defined.

(** C3 on the same failure report: [lxc_start] returns 4. *)
Lemma failure_branches_miss_internal_error_sample :
  0 < 2 /\
  parent_reads (fst (sample_start true child_fails)) = [4; 4] /\
  snd (sample_start true child_fails) = Returned 4.
Proof.
  split; [lia|]. split; [reflexivity|].
  destruct (failure_branches_miss_internal_error 1 2 "/var/lib/lxc" true
              "c1" sample_argv child_fails 4 4 ltac:(lia) eq_refl)
    as [H _].
  destruct (H ltac:(lia)) as [Hret _]. exact Hret.
Defined.

(** C4 as stated fails when [readlink] fails: STARTING was set, RUNNING is
    never reached, the run returns the internal-error code, and no
    ABORTING transition is attempted. *)
Lemma readlink_failure_skips_aborting :
  transitions_done (fst (sample_start true readlink_fails))
  = [STARTING; STOPPED] /\
  snd (sample_start true readlink_fails) = Returned (-2) /\
  ~ In ABORTING (transitions (fst (sample_start true readlink_fails))).
Proof.
  split; [reflexivity|]. split; [reflexivity|].
  vm_compute. intros [H|[H|[]]]; discriminate H.
Qed.

(** C4 as amended, on a run that cannot send the continue signal. *)
Lemma aborting_after_spawn_only_sample :
  forks (fst (sample_start true continue_fails))
  = [(compute_clone_flags 1 1, 1234)] /\
  0 < 1234 /\
  In ABORTING (transitions (fst (sample_start true continue_fails))).
Proof.
  split; [reflexivity|]. split; [lia|].
  apply (proj1 (aborting_after_spawn_only 1 2 "/var/lib/lxc" true "c1"
                  sample_argv continue_fails)
           (compute_clone_flags 1 1) 1234 eq_refl ltac:(lia)).
  vm_compute. intros [H|[H|[H|[]]]]; discriminate H.
Defined.



(** C6 as stated fails in three ways.  In a build without
    NETWORK_DESTROY: the network was created, the continue signal cannot
    be sent, and the network is still there when [lxc_start] returns.  In
    a build with NETWORK_DESTROY: the same run calls
    [conf_destroy_network], the call reports an error, and the network is
    still there.  On a container with a pid record left by an earlier
    run: the child reports a failure, [unlink] is called on the buffer
    that was never filled, and the record is still there. *)
Lemma cleanup_leaves_network_or_record :
  (In (ECreateNetwork 1234 0) (fst (sample_start false continue_fails)) /\
   snd (sample_start false continue_fails) = Returned (-2) /\
   w_network (run_world clean (fst (sample_start false continue_fails)))
   = true) /\
  (In (ECreateNetwork 1234 0) (fst (sample_start true destroy_fails)) /\
   destroy_calls (fst (sample_start true destroy_fails)) = [-1] /\
   snd (sample_start true destroy_fails) = Returned (-2) /\
   w_network (run_world clean (fst (sample_start true destroy_fails)))
   = true) /\
  (snd (sample_start true child_fails) = Returned 4 /\
   unlinks (fst (sample_start true child_fails)) = [None] /\
   w_pidfile (run_world stale_record (fst (sample_start true child_fails)))
   = Some ("/var/lib/lxc/c1/init"%string, format_pid 999)).
Proof.
  split; [|split].
  - split; [|split; reflexivity].
    vm_compute. do 12 right. left. reflexivity.
  - split; [|repeat split; reflexivity].
    vm_compute. do 12 right. left. reflexivity.
  - repeat split; reflexivity.
Qed.

(** C6 as amended, on that run in a build with NETWORK_DESTROY in which
    the teardown succeeds. *)
Lemma cleanup_after_lock_sample :
  snd (sample_start true continue_fails) = Returned (-2) /\
  0 < lxc_get_lock_res continue_fails /\
  lock_releases (fst (sample_start true continue_fails)) = 1%nat /\
  destroy_calls (fst (sample_start true continue_fails)) = [0] /\
  w_network (run_world clean (fst (sample_start true continue_fails)))
  = false.
Proof.
  split; [reflexivity|]. split; [reflexivity|].
  assert (Hw : ~ wait_failed continue_fails
                   (fst (sample_start true continue_fails))).
  { unfold wait_failed. vm_compute.
    intros [[H|[H|[H|[]]]] _]; discriminate H. }
  destruct (cleanup_after_lock 1 2 "/var/lib/lxc" true "c1" sample_argv
              continue_fails (-2) clean eq_refl eq_refl)
    as (_ & Hl & _ & _ & _ & Hd & Hn).
  split; [exact Hl|]. split.
  - apply Hd; [reflexivity|exact Hw|reflexivity].
  - apply Hn; [reflexivity|reflexivity|reflexivity|exact Hw].
Defined.

(** C7 on a configuration with a utsname and no network. *)
Lemma clone_flags_follow_configuration_sample :
  Z.land (compute_clone_flags 1 0) CLONE_NEWUTS = CLONE_NEWUTS /\
  Z.land (compute_clone_flags 1 0) CLONE_NEWNET <> CLONE_NEWNET.
Proof.
  destruct (clone_flags_follow_configuration 1 2 "/var/lib/lxc" true "c1"
              sample_argv all_ok) as (_ & H & _).
  destruct (H 1 0) as (_ & _ & _ & [_ Hu] & [Hn _]).
  split; [apply Hu; discriminate|].
  intros E. now apply Hn.
Defined.

(** C8 on a run whose wait is interrupted twice: three [waitpid] calls,
    no ABORTING, and the run returns 0. *)
Lemma wait_retries_on_interruption_sample :
  In RUNNING (transitions_done (fst (sample_start true interrupted_twice)))
  /\ waitpid_calls (fst (sample_start true interrupted_twice))
     = [(-1, EINTR); (-1, EINTR); (1234, 0)]
  /\ snd (sample_start true interrupted_twice) = Returned 0.
Proof.
  assert (H : In RUNNING
                (transitions_done (fst (sample_start true interrupted_twice))))
    by (vm_compute; auto).
  split; [exact H|].
  destruct (wait_retries_on_interruption 1 2 "/var/lib/lxc" true "c1"
              sample_argv interrupted_twice) as (_ & _ & Hrun).
  destruct (Hrun H) as (Hcalls & Hok & _).
  split; [exact Hcalls|]. now apply Hok.
Defined.

(** C9 on a run that cannot open the pid record. *)
Lemma pid_record_failure_returns_zero_sample :
  parent_reads (fst (sample_start true open_fails)) = [4; 0] /\
  (open_res open_fails < 0 \/ write_pid_res open_fails < 0) /\
  kills (fst (sample_start true open_fails)) = [(1234, SIGKILL)] /\
  snd (sample_start true open_fails) = Returned 0.
Proof.
  split; [reflexivity|]. split; [left; reflexivity|].
  destruct (pid_record_failure_returns_zero 1 2 "/var/lib/lxc" true "c1"
              sample_argv open_fails 4 eq_refl (or_introl eq_refl))
    as (_ & Hk & _ & Hr).
  split; [exact Hk | exact Hr].
Defined.


(** * Further properties of [lxc_start] *)

Lemma after_unlock_skip (P : event -> Prop) (l rest : list event) :
  Forall P l ->
  (forall e, P e -> match e with EPutLock _ => False | _ => True end) ->
  after_unlock (l ++ rest) = after_unlock rest.
Proof.
  intros Hl Hp. induction Hl as [|e l He _ IH]; [reflexivity|].
  specialize (Hp e He). cbn [app after_unlock].
  destruct e; try exact IH. contradiction.
Qed.

(** Evaluate the further observations on the trace of the path. *)
Ltac observe_more :=
  unfold handler_adds, handler_dels, sv0_closes, sv1_closes, fd_closes,
    frees, handshake, parent_writes;
  observe.

Ltac observe_unlock :=
  cbn [after_unlock app];
  repeat (match goal with
          | H : Forall ?P ?l |- context [after_unlock (?l ++ ?rest)] =>
              rewrite (after_unlock_skip P l rest H) by quiet_shape
          end; cbn [after_unlock app]).

Lemma net_flag_set (u n : Z) :
  truthy (Z.land (compute_clone_flags u n) CLONE_NEWNET) = truthy n.
Proof.
  unfold compute_clone_flags.
  destruct (truthy u), (truthy n); reflexivity.
Qed.

Lemma running_record_is_filter (f : string * string) (l : list event) :
  running_record_is f (filter lifetime_event l) -> running_record_is f l.
Proof.
  unfold running_record_is, unlinks.
  rewrite !w_state_run, !w_pidfile_run.
  rewrite flat_map_filter by (intros [] H; try discriminate H; reflexivity).
  rewrite !fold_filter
    by (intros [] ? H; try discriminate H; reflexivity).
  trivial.
Qed.

Lemma substring_all (s : string) (n : nat) :
  (String.length s <= n)%nat -> substring 0 n s = s.
Proof.
  revert n. induction s as [|c s IH]; intros n Hn.
  - now destruct n.
  - destruct n as [|n]; cbn in Hn; [lia|].
    cbn. f_equal. apply IH. lia.
Qed.

Lemma substring_length (s : string) (n : nat) :
  String.length (substring 0 n s) = Nat.min n (String.length s).
Proof.
  revert s. induction n as [|n IH]; intros s.
  - now destruct s.
  - destruct s as [|c s]; [reflexivity|]. cbn. now rewrite IH.
Qed.

Lemma substring_prefix (s : string) (n : nat) :
  prefix (substring 0 n s) s = true.
Proof.
  revert s. induction n as [|n IH]; intros s.
  - now destruct s.
  - destruct s as [|c s]; [reflexivity|]. cbn.
    destruct (Ascii.ascii_dec c c) as [_|Hc]; [apply IH|now elim Hc].
Qed.

Lemma append_newline_inj (s t : string) :
  (s ++ newline)%string = (t ++ newline)%string -> s = t.
Proof.
  revert t. induction s as [|c s IH]; intros [|d t] E; cbn in E.
  - reflexivity.
  - injection E as _ E. now destruct t.
  - injection E as _ E. now destruct s.
  - injection E as -> E. f_equal. now apply IH.
Qed.

Lemma to_int_printable (z : Z) :
  Z.to_int z <> Decimal.Pos Decimal.Nil /\
  Z.to_int z <> Decimal.Neg Decimal.Nil.
Proof.
  destruct z as [|p|p]; cbn; split; intros E; try discriminate E;
    injection E as E; now apply DecimalPos.Unsigned.to_uint_nonnil in E.
Qed.

Section More.

Variables (LXC_ERROR_BUSY LXC_ERROR_INTERNAL : Z).
Variable LXCPATH : string.
Variable NETWORK_DESTROY : bool.
Variable name : string.
Variable argv : list string.
Variable O : Oracle.

Local Abbreviation run :=
  (lxc_start LXC_ERROR_BUSY LXC_ERROR_INTERNAL LXCPATH NETWORK_DESTROY
     name argv O).

(** X1. The value [lxc_start] returns: the busy code when the lock is
    busy; the internal-error code on every return before the final read
    of the channel; and from the final read on, the result of that read,
    whatever happens afterwards. *)
Theorem return_value_table :
  forall v, snd run = Returned v ->
    (lxc_get_lock_res O = 0 /\ v = - LXC_ERROR_BUSY) \/
    (lxc_get_lock_res O <> 0 /\
     (List.length (parent_reads (fst run)) < 2)%nat /\
     v = - LXC_ERROR_INTERNAL) \/
    (exists r1, parent_reads (fst run) = [r1; v]).
Proof.
  intros v. by_paths; observe; cbn [fst snd]; intros Hret;
    try discriminate Hret.
  all: injection Hret as <-; facts.
  all: try (left; split; [assumption|reflexivity]).
  all: try (right; left; split; [assumption|];
            split; [cbn; lia|reflexivity]).
  all: right; right; first [ eexists; reflexivity
                           | assert (read_outcome_res O = 0) as -> by lia;
                             eexists; reflexivity ].
Qed.

(** X2. The lock is released at most once, and it is released exactly
    when it was acquired and the process is the one that returns from
    [lxc_start]: never after a busy or failed acquisition, and never by
    the spawned process. *)
Theorem lock_released_iff_held :
  (lock_releases (fst run) <= 1)%nat /\
  (lock_releases (fst run) = 1%nat <->
   0 < lxc_get_lock_res O /\ exists v, snd run = Returned v).
Proof.
  by_paths; observe; cbn [fst snd]; facts.
  all: split; [lia|].
  all: split; [intros H; try discriminate H|intros [Hl [v Hv]]];
    try discriminate Hv; try lia.
  all: try (split; [lia|eexists; reflexivity]).
  all: reflexivity.
Qed.

(** X3. The terminal handlers are installed only once the socketpair
    exists, SIGINT then SIGQUIT, and the cleanup removes them, SIGQUIT
    then SIGINT, on every return after the lock was acquired, also on
    the returns that never installed them. *)
Theorem handlers_removed_on_every_return :
  forall v, snd run = Returned v -> 0 < lxc_get_lock_res O ->
    handler_dels (fst run) = [SIGQUIT; SIGINT] /\
    (forks (fst run) <> [] -> handler_adds (fst run) = [SIGINT; SIGQUIT]) /\
    (forks (fst run) = [] -> handler_adds (fst run) = []).
Proof.
  intros v. by_paths; observe_more; cbn [fst snd]; intros Hret Hlock;
    try discriminate Hret; facts; try lia.
  all: split; [reflexivity|split]; intros Hf;
    first [reflexivity | discriminate Hf | now elim Hf].
Qed.

(** X4. What happens to the two ends of the socketpair.  When the spawn
    fails both are closed once.  The spawned process closes the
    launcher's end and keeps its own.  The launcher closes the child's
    end after the fork; on a failure unwind it closes it a second time
    together with its own end, and on normal completion it never closes
    its own end. *)
Theorem channel_ends_closed :
  forall f pid, forks (fst run) = [(f, pid)] ->
    (pid < 0 -> sv0_closes (fst run) = 1%nat /\ sv1_closes (fst run) = 1%nat)
    /\
    (pid = 0 -> sv0_closes (fst run) = 0%nat /\ sv1_closes (fst run) = 1%nat)
    /\
    (0 < pid -> In ABORTING (transitions (fst run)) ->
     sv0_closes (fst run) = 2%nat /\ sv1_closes (fst run) = 1%nat) /\
    (0 < pid -> ~ In ABORTING (transitions (fst run)) ->
     sv0_closes (fst run) = 1%nat /\ sv1_closes (fst run) = 0%nat).
Proof.
  intros f pid. by_paths; observe_more; cbn [fst snd]; intros Hf;
    try discriminate Hf.
  all: injection Hf as _ <-; facts.
  all: repeat split; try lia; try reflexivity.
  all: try (exfalso; match goal with H : In _ _ |- _ => revert H end;
            not_in).
  all: exfalso; match goal with H : ~ In _ _ |- _ => apply H end;
    cbn [In]; auto.
Qed.

(** X5. The descriptor of the pid record: [close] is called on it exactly
    once on every path that called [open], with the value [open]
    returned (also when that value is negative), and never otherwise. *)
Theorem pid_record_descriptor_closed_once :
  (opens (fst run) <> [] -> fd_closes (fst run) = [open_res O]) /\
  (opens (fst run) = [] -> fd_closes (fst run) = []).
Proof.
  by_paths; observe_more; cbn [fst snd].
  all: split; intros H; first [reflexivity | discriminate H | now elim H].
Qed.

(** X6. SIGKILL is sent at most once, only to the child that [fork_ns]
    returned, and exactly on the paths that attempt the ABORTING
    transition: never on normal completion and never when no child
    exists. *)
Theorem kill_only_on_abort :
  (In ABORTING (transitions (fst run)) ->
   kills (fst run) = [(fork_ns_res O, SIGKILL)] /\ 0 < fork_ns_res O) /\
  (~ In ABORTING (transitions (fst run)) -> kills (fst run) = []).
Proof.
  by_paths; observe; cbn [fst snd]; facts.
  all: split; intros Hin.
  all: try reflexivity.
  all: try (exfalso; revert Hin; not_in).
  all: try (split; [reflexivity|lia]).
  all: exfalso; apply Hin; cbn [In]; auto.
Qed.

(** X8. The spawned process never comes back from [lxc_start]: it ends
    in [exit(1)] or in the exec'd program.  It attempts no lifecycle
    transition of its own, does not release the lock, removes no handler
    and runs none of the cleanup block. *)
Theorem spawned_process_never_cleans_up :
  forall f, forks (fst run) = [(f, 0)] ->
    (snd run = Exited 1 \/ snd run = Execed) /\
    transitions (fst run) = [STARTING] /\
    cleanup_calls (fst run) = [] /\
    kills (fst run) = [].
Proof.
  intros f. by_paths; observe; cbn [fst snd]; intros Hf;
    try discriminate Hf.
  all: try (injection Hf as _ Hpid; facts; lia).
  all: repeat split; try reflexivity; auto.
Qed.

(** X15. What the cleanup block hands to [unlink] and [free].  On a
    return that got as far as opening the pid record, [unlink] gets the
    path of the record and [free] the text of the pid; on every other
    return after the lock was acquired, [unlink] is called on the buffer
    that was never filled and [free] on the null pointer. *)
Theorem cleanup_arguments :
  forall v, snd run = Returned v -> 0 < lxc_get_lock_res O ->
    (opens (fst run) <> [] ->
     unlinks (fst run) = [Some (init_path LXCPATH name)] /\
     frees (fst run) = [Some (format_pid (fork_ns_res O))]) /\
    (opens (fst run) = [] ->
     unlinks (fst run) = [None] /\ frees (fst run) = [None]).
Proof.
  intros v. by_paths; observe_more; cbn [fst snd]; intros Hret Hlock;
    try discriminate Hret; facts; try lia.
  all: split; intros H;
    first [split; reflexivity | discriminate H | now elim H].
Qed.

(** X7. A failure of a call whose status is only logged (the namespace
    group registration, the transitions to STOPPING, STOPPED and ABORTING,
    the network teardown) changes neither the value returned nor the calls
    made: the run makes the same calls with the same arguments in the
    same order. *)
Theorem logged_failures_change_nothing :
  forall link stopping stopped aborting destroy,
    snd (lxc_start LXC_ERROR_BUSY LXC_ERROR_INTERNAL LXCPATH
           NETWORK_DESTROY name argv
           (with_logged_statuses link stopping stopped aborting destroy O))
    = snd run /\
    calls_made
      (fst (lxc_start LXC_ERROR_BUSY LXC_ERROR_INTERNAL LXCPATH
              NETWORK_DESTROY name argv
              (with_logged_statuses link stopping stopped aborting destroy
                 O)))
    = calls_made (fst run).
Proof.
  intros link stopping stopped aborting destroy.
  destruct run as [tr res] eqn:E.
  match goal with
  | |- context [lxc_start ?a ?b ?c ?d ?e ?f ?g] =>
      destruct (lxc_start a b c d e f g) as [tr' res'] eqn:E'
  end.
  revert E E'. unfold_start. unfold with_logged_statuses.
  cbn [lxc_get_lock_res lxc_setstate_res readlink_res ttyname_val
       socketpair_res conf_has_utsname_res conf_has_network_res
       fork_ns_res child_write_ready_res child_read_continue_res
       lxc_setup_res child_write_setup_res mount_res prctl_res execvp_res
       child_write_exec_res read_ready_res lxc_link_nsgroup_res
       conf_create_network_res write_continue_res read_outcome_res
       open_res write_pid_res waitpid_script conf_destroy_network_res].
  repeat branch; cbn [fst snd app].
  all: intros E E'; injection E as <- <-; injection E' as <- <-.
  all: split; [reflexivity|].
  all: unfold calls_made; cbn [flat_map app];
    repeat (first [skip_quiet | rewrite (flat_map_app _ wt)];
            cbn [flat_map app]).
  all: reflexivity.
Qed.

(** X12. While the state is RUNNING and the cleanup has not unlinked it
    yet, the pid record is the file at the path built from the container
    name and holds the bytes [write] reported written, taken from the
    start of the decimal pid and newline; when [write] reports the whole
    length, that is the whole text. *)
Theorem pid_record_content_while_running :
  (forall pre post, fst run = pre ++ post ->
     running_record_is
       (init_path LXCPATH name,
        substring 0 (Z.to_nat (write_pid_res O))
          (format_pid (fork_ns_res O))) pre) /\
  (write_pid_res O = strlen (format_pid (fork_ns_res O)) ->
   substring 0 (Z.to_nat (write_pid_res O)) (format_pid (fork_ns_res O))
   = format_pid (fork_ns_res O)).
Proof.
  split.
  - apply points_by_filter with (p := lifetime_event);
      [apply running_record_is_filter|].
    by_paths; observe; cbn [prefixes map]; repeat constructor.
    all: unfold running_record_is; resources; observe.
    all: open_tests; intros Hu Hs; try discriminate Hu; try discriminate Hs.
    all: reflexivity.
  - intros ->. unfold strlen. rewrite Nat2Z.id. now apply substring_all.
Qed.

(** X16. Releasing the lock is the last thing the cleanup does to the
    container: after [lxc_put_lock] the process only removes the two
    terminal handlers. *)
Theorem lock_released_last :
  forall v, snd run = Returned v -> 0 < lxc_get_lock_res O ->
    after_unlock (fst run) = [EDelHandler SIGQUIT; EDelHandler SIGINT].
Proof.
  intros v. by_paths; cbn [fst snd]; intros Hret Hlock;
    try discriminate Hret; facts; try lia.
  all: observe_unlock; reflexivity.
Qed.

(** X17. The launcher sends the continue signal only after the ready
    signal was read without error, the namespace group was registered
    for the child (whatever the status), and, when the configuration has
    a network, the network was created for the child without error. *)
Theorem continue_follows_setup :
  forall w, parent_writes (fst run) = [w] ->
    0 <= read_ready_res O /\
    ((conf_has_network_res O = 0 /\
      firstn 3 (handshake (fst run))
      = [ERead Sv1 SIZEOF_SYNC (read_ready_res O);
         ELinkNsgroup (fork_ns_res O) (lxc_link_nsgroup_res O);
         EWrite Sv1 SIZEOF_SYNC w]) \/
     (conf_has_network_res O <> 0 /\ conf_create_network_res O = 0 /\
      firstn 4 (handshake (fst run))
      = [ERead Sv1 SIZEOF_SYNC (read_ready_res O);
         ELinkNsgroup (fork_ns_res O) (lxc_link_nsgroup_res O);
         ECreateNetwork (fork_ns_res O) (conf_create_network_res O);
         EWrite Sv1 SIZEOF_SYNC w])).
Proof.
  intros w. by_paths; observe_more; cbn [fst snd firstn]; intros Hw;
    try discriminate Hw.
  all: injection Hw as <-.
  all: repeat match goal with
         | H : context [Z.land (compute_clone_flags _ _) CLONE_NEWNET] |- _ =>
             rewrite net_flag_set in H
         end; facts.
  all: split; [assumption|].
  all: first [ left; split; [assumption|reflexivity]
             | right; split; [assumption|split; [assumption|reflexivity]] ].
Qed.

(** X9. In the spawned process [execvp] is called exactly when the two
    channel operations, [lxc_setup], the console bind mount and the
    capability drop all succeeded, and then it is the eighth call, right
    after the capability drop and after the channel end was marked
    close-on-exec; the process becomes the target program exactly when
    moreover [execvp] does not return, and exits with status 1 in every
    other case. *)
Theorem exec_only_after_full_setup :
  (execs (fst (child argv O)) <> [] <->
   0 <= child_write_ready_res O /\ 0 <= child_read_continue_res O /\
   lxc_setup_res O = 0 /\ mount_res O = 0 /\ prctl_res O = 0) /\
  (execs (fst (child argv O)) <> [] ->
   firstn 8 (fst (child argv O))
   = [EClose Sv1; ECloexec Sv0;
      EWrite Sv0 SIZEOF_SYNC (child_write_ready_res O);
      ERead Sv0 SIZEOF_SYNC (child_read_continue_res O);
      ESetup (lxc_setup_res O); EMount (ttyname_val O) (mount_res O);
      ECapDrop (prctl_res O); EExecvp argv (execvp_res O)]) /\
  (snd (child argv O) = Execed <->
   execs (fst (child argv O)) <> [] /\ execvp_res O = None) /\
  (snd (child argv O) <> Execed -> snd (child argv O) = Exited 1).
Proof.
  by_child_paths; observe; cbn [fst snd firstn]; facts.
  all: repeat split; intros; try reflexivity; try discriminate;
    try lia; try congruence; try tauto.
  all: try (match goal with H : ?x <> ?x |- _ => now elim H end).
  all: try (match goal with H : _ /\ _ |- _ => destruct H end; lia).
  all: match goal with H : _ /\ _ |- _ => destruct H as [_ H'] end;
    discriminate H'.
Qed.

End More.

(** X10. The wait loop steps over any number of interruptions: on a
    script that starts with interrupted results it calls [waitpid] once
    for each of them and goes on as on the rest of the script.  It takes
    the results in order, and every call but its last was interrupted. *)
Theorem wait_again_skips_interruptions :
  forall pid pre rest, Forall interrupted pre ->
    wait_again pid (pre ++ rest)
    = (map (fun x => EWaitpid pid (fst x) (snd x)) pre
         ++ fst (wait_again pid rest),
       snd (wait_again pid rest)) /\
    Forall interrupted
      (removelast (waitpid_calls (fst (wait_again pid (pre ++ rest))))) /\
    exists post,
      (pre ++ rest) ++ [(pid, 0)]
      = waitpid_calls (fst (wait_again pid (pre ++ rest))) ++ post.
Proof.
  intros pid pre rest Hpre. split; [|split].
  - induction Hpre as [|[r e] pre [Hr He] _ IH].
    + cbn [app map]. now destruct (wait_again pid rest).
    + cbn [fst snd] in Hr, He. subst e. cbn [app map].
      rewrite wait_again_interrupted by assumption.
      rewrite IH. reflexivity.
  - generalize (pre ++ rest) as script. clear.
    induction script as [|[r e] script IH]; [constructor|].
    destruct (Z.ltb_spec r 0) as [Hr|Hr];
      [destruct (Z.eqb_spec e EINTR) as [He|He]|].
    + subst e. rewrite wait_again_interrupted by assumption.
      cbn [fst]. unfold waitpid_calls in *. cbn [flat_map app].
      destruct (flat_map _ (fst (wait_again pid script))) as [|x l] eqn:El.
      * constructor.
      * cbn [removelast]. constructor; [split; [exact Hr|reflexivity]|].
        exact IH.
    + rewrite wait_again_error by assumption. constructor.
    + rewrite wait_again_reaped by assumption. constructor.
  - generalize (pre ++ rest) as script. clear.
    induction script as [|[r e] script [post IH]].
    + exists []. reflexivity.
    + destruct (Z.ltb_spec r 0) as [Hr|Hr];
        [destruct (Z.eqb_spec e EINTR) as [He|He]|].
      * subst e. rewrite wait_again_interrupted by assumption.
        exists post. cbn [fst]. unfold waitpid_calls in *.
        cbn [flat_map app]. now rewrite <- IH.
      * rewrite wait_again_error by assumption.
        exists (script ++ [(pid, 0)]). reflexivity.
      * rewrite wait_again_reaped by assumption.
        exists (script ++ [(pid, 0)]). reflexivity.
Qed.

(** X11. The text written to the pid record can be read back: it is a
    decimal number followed by a newline, the number parses to the pid,
    and two different pids never give the same text. *)
Theorem format_pid_reads_back :
  (forall pid,
     exists digits,
       format_pid pid = (digits ++ newline)%string /\
       option_map Z.of_int (NilZero.int_of_string digits) = Some pid) /\
  (forall p q, format_pid p = format_pid q -> p = q).
Proof.
  assert (Hback : forall pid,
             NilZero.int_of_string (NilZero.string_of_int (Z.to_int pid))
             = Some (Z.to_int pid)).
  { intros pid. destruct (to_int_printable pid). now apply NilZero.isi. }
  split.
  - intros pid. exists (NilZero.string_of_int (Z.to_int pid)).
    split; [reflexivity|]. rewrite Hback. cbn. f_equal. apply DecimalZ.of_to.
  - intros p q E. apply append_newline_inj in E.
    apply DecimalZ.to_int_inj.
    apply (f_equal NilZero.int_of_string) in E.
    rewrite !Hback in E. now injection E.
Qed.

(** X13. The path of the pid record always fits the buffer of MAXPATHLEN
    bytes with its terminating zero: it is the start of
    LXCPATH/name/init, and the whole of it when that is short enough. *)
Theorem init_path_fits_buffer :
  forall LXCPATH name,
    Z.of_nat (String.length (init_path LXCPATH name)) < MAXPATHLEN /\
    prefix (init_path LXCPATH name) (LXCPATH ++ "/" ++ name ++ "/init")
    = true /\
    (Z.of_nat (String.length (LXCPATH ++ "/" ++ name ++ "/init"))
     < MAXPATHLEN ->
     init_path LXCPATH name = (LXCPATH ++ "/" ++ name ++ "/init")%string).
Proof.
  intros LXCPATH name. unfold init_path.
  remember (LXCPATH ++ "/" ++ name ++ "/init")%string as full.
  remember (Z.to_nat (MAXPATHLEN - 1)) as room.
  assert (Hroom : Z.of_nat room = MAXPATHLEN - 1)
    by (subst room; unfold MAXPATHLEN; lia).
  split; [|split].
  - rewrite substring_length. lia.
  - apply substring_prefix.
  - intros Hlen. apply substring_all. lia.
Qed.

(** X14. The clone flags fit a 32-bit signed [int] and hold no bit other
    than the five namespace flags, whatever the two configuration
    queries return. *)
Theorem clone_flags_fit_int :
  forall u n,
    0 < compute_clone_flags u n < 2 ^ 31 /\
    Z.land (compute_clone_flags u n) CLONE_NEW_ALL = compute_clone_flags u n.
Proof.
  intros u n. unfold compute_clone_flags.
  destruct (truthy u), (truthy n); repeat split.
Qed.

(** * The further properties on sample runs *)

(** X1 on the run whose final read returns four bytes. *)
Lemma return_value_table_sample :
  snd (sample_start true child_fails) = Returned 4 /\
  exists r1, parent_reads (fst (sample_start true child_fails)) = [r1; 4].
Proof.
  split; [reflexivity|].
  destruct (return_value_table 1 2 "/var/lib/lxc" true "c1" sample_argv
              child_fails 4 eq_refl) as [[H _]|[(_ & _ & H)|H]].
  - vm_compute in H. discriminate H.
  - discriminate H.
  - exact H.
Defined.

(** X3 on a run that fails before the handlers are installed. *)
Lemma handlers_removed_on_every_return_sample :
  snd (sample_start true readlink_fails) = Returned (-2) /\
  0 < lxc_get_lock_res readlink_fails /\
  handler_dels (fst (sample_start true readlink_fails)) = [SIGQUIT; SIGINT]
  /\ handler_adds (fst (sample_start true readlink_fails)) = [].
Proof.
  split; [reflexivity|]. split; [reflexivity|].
  destruct (handlers_removed_on_every_return 1 2 "/var/lib/lxc" true "c1"
              sample_argv readlink_fails (-2) eq_refl eq_refl)
    as (Hd & _ & Ha).
  split; [exact Hd|]. apply Ha. reflexivity.
Defined.

(** X4 on the run in which everything succeeds: the launcher's end of the
    channel is never closed. *)
Lemma channel_ends_closed_sample :
  forks (fst (sample_start true all_ok)) = [(compute_clone_flags 1 1, 1234)]
  /\ sv0_closes (fst (sample_start true all_ok)) = 1%nat
  /\ sv1_closes (fst (sample_start true all_ok)) = 0%nat.
Proof.
  split; [reflexivity|].
  destruct (channel_ends_closed 1 2 "/var/lib/lxc" true "c1" sample_argv
              all_ok (compute_clone_flags 1 1) 1234 eq_refl)
    as (_ & _ & _ & H).
  apply H; [reflexivity|].
  vm_compute. intros [E|[E|[E|[E|[]]]]]; discriminate E.
Defined.

(** X8 on a spawned process whose console bind mount fails. *)
Lemma spawned_process_never_cleans_up_sample :
  forks (fst (sample_start true mount_fails)) = [(compute_clone_flags 1 1, 0)]
  /\ transitions (fst (sample_start true mount_fails)) = [STARTING]
  /\ cleanup_calls (fst (sample_start true mount_fails)) = [].
Proof.
  split; [reflexivity|].
  destruct (spawned_process_never_cleans_up 1 2 "/var/lib/lxc" true "c1"
              sample_argv mount_fails (compute_clone_flags 1 1) eq_refl)
    as (_ & Ht & Hc & _).
  split; [exact Ht | exact Hc].
Defined.

(** X10 on one interruption followed by the exit of the child. *)
Lemma wait_again_skips_interruptions_sample :
  Forall interrupted [(-1, EINTR)] /\
  wait_again 1234 ([(-1, EINTR)] ++ [(1234, 0)])
  = (map (fun x => EWaitpid 1234 (fst x) (snd x)) [(-1, EINTR)]
       ++ fst (wait_again 1234 [(1234, 0)]),
     snd (wait_again 1234 [(1234, 0)])).
Proof.
  assert (H : Forall interrupted [(-1, EINTR)]).
  { constructor; [split; reflexivity|constructor]. }
  split; [exact H|].
  exact (proj1 (wait_again_skips_interruptions 1234 [(-1, EINTR)]
                  [(1234, 0)] H)).
Defined.

(** X15 on a run that fails before the pid record is opened. *)
Lemma cleanup_arguments_sample :
  snd (sample_start true readlink_fails) = Returned (-2) /\
  0 < lxc_get_lock_res readlink_fails /\
  unlinks (fst (sample_start true readlink_fails)) = [None] /\
  frees (fst (sample_start true readlink_fails)) = [None].
Proof.
  split; [reflexivity|]. split; [reflexivity|].
  destruct (cleanup_arguments 1 2 "/var/lib/lxc" true "c1" sample_argv
              readlink_fails (-2) eq_refl eq_refl) as [_ H].
  apply H. reflexivity.
Defined.

(** X16 on the run in which everything succeeds. *)
Lemma lock_released_last_sample :
  snd (sample_start true all_ok) = Returned 0 /\
  0 < lxc_get_lock_res all_ok /\
  after_unlock (fst (sample_start true all_ok))
  = [EDelHandler SIGQUIT; EDelHandler SIGINT].
Proof.
  split; [reflexivity|]. split; [reflexivity|].
  exact (lock_released_last 1 2 "/var/lib/lxc" true "c1" sample_argv
           all_ok 0 eq_refl eq_refl).
Defined.

(** X17 on the run in which everything succeeds, with a network. *)
Lemma continue_follows_setup_sample :
  parent_writes (fst (sample_start true all_ok)) = [4] /\
  firstn 4 (handshake (fst (sample_start true all_ok)))
  = [ERead Sv1 SIZEOF_SYNC 4; ELinkNsgroup 1234 0; ECreateNetwork 1234 0;
     EWrite Sv1 SIZEOF_SYNC 4].
Proof.
  split; [reflexivity|].
  destruct (continue_follows_setup 1 2 "/var/lib/lxc" true "c1" sample_argv
              all_ok 4 eq_refl) as [_ [[H _]|(_ & _ & H)]].
  - vm_compute in H. discriminate H.
  - exact H.
Defined.
